(** * confluence-sync: the configuration loader

    A shallow embedding of [src/confluence_sync/config.py] and the
    properties of its [Config] class.

    Modelling conventions.
    - A Python [str] is a [string]; [str.strip()] removes the ASCII
      white space Python removes (tab, line feed, vertical tab, form feed,
      carriage return, the separators 0x1c-0x1f and the blank).  White
      space outside ASCII is treated as ordinary text.
    - A value produced by [yaml.safe_load] is a [pyval]: [None], a bool,
      an int, a str, a list or a dict.  Floats, timestamps, binary data
      and sets, which YAML can also produce, are left out.
    - A Python dict is an association list in insertion order whose keys
      are compared with Python's [==] on hashable scalars.
    - [os.environ] is a finite map from names to values; it stands for the
      environment [os.getenv] reads, that is, after the optional
      [load_dotenv()] step at the top of [load].
    - The file system maps a path to what [yaml.safe_load] makes of the
      file there; [yaml.dump] stores the document it is given.
    - Exceptions are values of [exn]; a computation returns [result].
    - The models [ConfluenceConfig] and [SyncConfig] follow pydantic 2:
      a [str] field takes a str and nothing else, a required field must be
      present, unknown keys are ignored, and every failing field is
      reported. *)

From Stdlib Require Import ZArith Ascii String List Bool Lia DecimalString.
From stdpp Require Import base option strings list gmap fin_maps.

Set Warnings "-register-all".

Local Open Scope string_scope.
Local Open Scope Z_scope.

(** ** Strings *)

Module Str.

(** [c.isspace()] on an ASCII character. *)
Definition isspace (c : ascii) : bool :=
  let n := nat_of_ascii c in
  ((9 <=? n)%nat && (n <=? 13)%nat) || ((28 <=? n)%nat && (n <=? 32)%nat).

Fixpoint lstrip (s : string) : string :=
  match s with
  | EmptyString => EmptyString
  | String c s' => if isspace c then lstrip s' else s
  end.

Fixpoint rstrip (s : string) : string :=
  match s with
  | EmptyString => EmptyString
  | String c s' =>
      match rstrip s' with
      | EmptyString => if isspace c then EmptyString else String c EmptyString
      | r => String c r
      end
  end.

(** [s.strip()] *)
Definition strip (s : string) : string := rstrip (lstrip s).

(** Truth value of a str: the empty string is false. *)
Definition nonempty (s : string) : bool :=
  match s with EmptyString => false | String _ _ => true end.

(** [s.startswith(c)] for a one-character prefix. *)
Definition startswith (c : ascii) (s : string) : bool :=
  match s with
  | String c' _ => Ascii.eqb c' c
  | EmptyString => false
  end.

(** [s.split(sep)] for a one-character separator: never an empty list. *)
Fixpoint split (sep : ascii) (s : string) : list string :=
  match s with
  | EmptyString => [EmptyString]
  | String c s' =>
      if Ascii.eqb c sep then EmptyString :: split sep s'
      else match split sep s' with
           | h :: t => String c h :: t
           | [] => [String c EmptyString]
           end
  end.

End Str.

(** ** Python values and exceptions *)

Inductive pyval : Type :=
| PNone
| PBool (b : bool)
| PInt (z : Z)
| PStr (s : string)
| PList (l : list pyval)
| PDict (d : list (pyval * pyval)).

Abbreviation pydict := (list (pyval * pyval)).

(** One entry of a pydantic [ValidationError]: where and what. *)
Inductive loc_item : Type :=
| LocField (name : string)
| LocIndex (i : nat).

Record ErrorDetails : Type := mkError { loc : list loc_item; type : string }.

Inductive exn : Type :=
| ValueError (msg : string)
| TypeError (msg : string)
| YAMLError
| JSONDecodeError
| ValidationError (title : string) (errors : list ErrorDetails).

Inductive result (A : Type) : Type :=
| Ok (a : A)
| Raise (e : exn).
Arguments Ok {A} a.
Arguments Raise {A} e.

Definition rbind {A B} (m : result A) (k : A -> result B) : result B :=
  match m with
  | Ok a => k a
  | Raise e => Raise e
  end.

Notation "'try!' x := m 'in' k" := (rbind m (fun x => k))
  (at level 10, x name, m at level 100, k at level 200).

(** [bool(v)] *)
Definition truthy (v : pyval) : bool :=
  match v with
  | PNone => false
  | PBool b => b
  | PInt z => negb (z =? 0)
  | PStr s => Str.nonempty s
  | PList l => match l with [] => false | _ => true end
  | PDict d => match d with [] => false | _ => true end
  end.

(** [isinstance(v, dict)], [isinstance(v, list)], [isinstance(v, str)] *)
Definition isinstance_dict (v : pyval) : bool :=
  match v with PDict _ => true | _ => false end.
Definition isinstance_list (v : pyval) : bool :=
  match v with PList _ => true | _ => false end.
Definition isinstance_str (v : pyval) : bool :=
  match v with PStr _ => true | _ => false end.

(** [a or b] *)
Definition py_or (a b : pyval) : pyval := if truthy a then a else b.

(** [type(v).__name__] *)
Definition type_name (v : pyval) : string :=
  match v with
  | PNone => "NoneType"
  | PBool _ => "bool"
  | PInt _ => "int"
  | PStr _ => "str"
  | PList _ => "list"
  | PDict _ => "dict"
  end.

(** ** Dictionaries *)

(** A key that is a number: [True == 1] and [False == 0] in Python. *)
Definition key_number (k : pyval) : option Z :=
  match k with
  | PBool b => Some (if b then 1 else 0)
  | PInt z => Some z
  | _ => None
  end.

(** [a == b] for two hashable scalars used as dict keys. *)
Definition key_eqb (a b : pyval) : bool :=
  match a, b with
  | PNone, PNone => true
  | PStr s, PStr t => String.eqb s t
  | _, _ =>
      match key_number a, key_number b with
      | Some x, Some y => x =? y
      | _, _ => false
      end
  end.

Definition hashable (k : pyval) : bool :=
  match k with
  | PList _ | PDict _ => false
  | _ => true
  end.

(** [d.get(k)], with [None] of Python as [None] of [option]. *)
Fixpoint dict_get (k : pyval) (d : pydict) : option pyval :=
  match d with
  | [] => None
  | (k', v) :: d' => if key_eqb k' k then Some v else dict_get k d'
  end.

(** [d[k] = v]: an existing key keeps its place, a new one goes last. *)
Fixpoint dict_set (k v : pyval) (d : pydict) : pydict :=
  match d with
  | [] => [(k, v)]
  | (k', v') :: d' =>
      if key_eqb k' k then (k', v) :: d' else (k', v') :: dict_set k v d'
  end.

Definition decimal (n : nat) : string := NilEmpty.string_of_uint (Nat.to_uint n).

(** The characters of a str, as Python iterates over it. *)
Fixpoint chars (s : string) : list pyval :=
  match s with
  | EmptyString => []
  | String c s' => PStr (String c EmptyString) :: chars s'
  end.

(** What iterating over [v] yields, when [v] can be iterated over. *)
Definition iterate (v : pyval) : option (list pyval) :=
  match v with
  | PStr s => Some (chars s)
  | PList l => Some l
  | PDict d => Some (map fst d)
  | _ => None
  end.

(** One element of the sequence handed to [dict(...)]: it must itself be
    a sequence of exactly two items, the first of them hashable. *)
Definition update_item (i : nat) (elem : pyval) : result (pyval * pyval) :=
  match iterate elem with
  | None =>
      Raise (TypeError ("cannot convert dictionary update sequence element #"
                        ++ decimal i ++ " to a sequence"))
  | Some [k; v] =>
      if hashable k then Ok (k, v)
      else Raise (TypeError ("unhashable type: '" ++ type_name k ++ "'"))
  | Some items =>
      Raise (ValueError ("dictionary update sequence element #" ++ decimal i
                         ++ " has length " ++ decimal (length items)
                         ++ "; 2 is required"))
  end.

Fixpoint update_from_seq (i : nat) (l : list pyval) (acc : pydict) : result pydict :=
  match l with
  | [] => Ok acc
  | elem :: l' =>
      try! kv := update_item i elem in
      update_from_seq (S i) l' (dict_set (fst kv) (snd kv) acc)
  end.

(** The builtin [dict(v)]: a copy of a dict, a dict made of a sequence
    of pairs, or an exception. *)
Definition py_dict (v : pyval) : result pyval :=
  match v with
  | PDict d => Ok (PDict d)
  | PList l => try! d := update_from_seq 0 l [] in Ok (PDict d)
  | PStr s => try! d := update_from_seq 0 (chars s) [] in Ok (PDict d)
  | _ => Raise (TypeError ("'" ++ type_name v ++ "' object is not iterable"))
  end.

(** [obj[k] = v] on a value that may or may not be a dict. *)
Definition setitem (obj : pyval) (k v : pyval) : result pyval :=
  match obj with
  | PDict d => Ok (PDict (dict_set k v d))
  | PList _ => Raise (TypeError "list indices must be integers or slices, not str")
  | _ => Raise (TypeError ("'" ++ type_name obj
                           ++ "' object does not support item assignment"))
  end.

(** ** The JSON reader

    [json.loads] of the standard library, as a scanner that cuts the text
    into tokens and a stack machine that assembles the value.  Both walk
    their input once, so no fuel is involved.  A number keeps its
    spelling; a [\uXXXX] escape is stored as the UTF-8 bytes of that code
    point. *)

Module Json.

Inductive json : Type :=
| JNull
| JBool (b : bool)
| JNumber (lexeme : string)
| JString (s : string)
| JArray (items : list json)
| JObject (members : list (string * json)).

Inductive token : Type :=
| TLBracket | TRBracket | TLBrace | TRBrace | TComma | TColon
| TString (s : string)
| TAtom (s : string).

Definition code (c : ascii) : nat := nat_of_ascii c.

Definition is_ws (c : ascii) : bool :=
  let n := code c in
  (n =? 32)%nat || (n =? 9)%nat || (n =? 10)%nat || (n =? 13)%nat.

Definition is_digit (c : ascii) : bool :=
  let n := code c in (48 <=? n)%nat && (n <=? 57)%nat.

Definition is_letter (c : ascii) : bool :=
  let n := code c in
  ((65 <=? n)%nat && (n <=? 90)%nat) || ((97 <=? n)%nat && (n <=? 122)%nat).

(** Characters of [true], [null], [NaN], [-Infinity] and of numbers. *)
Definition is_atom_char (c : ascii) : bool :=
  is_digit c || is_letter c
  || (code c =? 43)%nat || (code c =? 45)%nat || (code c =? 46)%nat.

Definition hex_value (c : ascii) : option nat :=
  let n := code c in
  if is_digit c then Some (n - 48)%nat
  else if (65 <=? n)%nat && (n <=? 70)%nat then Some (n - 55)%nat
  else if (97 <=? n)%nat && (n <=? 102)%nat then Some (n - 87)%nat
  else None.

Definition utf8 (cp : nat) : list ascii :=
  if (cp <? 128)%nat then [ascii_of_nat cp]
  else if (cp <? 2048)%nat then
    [ascii_of_nat (192 + cp / 64); ascii_of_nat (128 + cp mod 64)]
  else
    [ascii_of_nat (224 + cp / 4096); ascii_of_nat (128 + (cp / 64) mod 64);
     ascii_of_nat (128 + cp mod 64)].

Inductive lex_state : Type :=
| LStart
| LAtom (acc : list ascii)
| LStr (acc : list ascii)
| LEsc (acc : list ascii)
| LUni (acc : list ascii) (cp : nat) (todo : nat).

Definition text (rev_acc : list ascii) : string :=
  string_of_list_ascii (rev rev_acc).

(** A character met between two tokens. *)
Definition lex_start (c : ascii) (out : list token) : option (lex_state * list token) :=
  let n := code c in
  if is_ws c then Some (LStart, out)
  else if (n =? 91)%nat then Some (LStart, TLBracket :: out)
  else if (n =? 93)%nat then Some (LStart, TRBracket :: out)
  else if (n =? 123)%nat then Some (LStart, TLBrace :: out)
  else if (n =? 125)%nat then Some (LStart, TRBrace :: out)
  else if (n =? 44)%nat then Some (LStart, TComma :: out)
  else if (n =? 58)%nat then Some (LStart, TColon :: out)
  else if (n =? 34)%nat then Some (LStr [], out)
  else if is_atom_char c then Some (LAtom [c], out)
  else None.

(** The character after a backslash. *)
Definition unescape (c : ascii) : option ascii :=
  let n := code c in
  if (n =? 34)%nat || (n =? 92)%nat || (n =? 47)%nat then Some c
  else if (n =? 98)%nat then Some (ascii_of_nat 8)
  else if (n =? 102)%nat then Some (ascii_of_nat 12)
  else if (n =? 110)%nat then Some (ascii_of_nat 10)
  else if (n =? 114)%nat then Some (ascii_of_nat 13)
  else if (n =? 116)%nat then Some (ascii_of_nat 9)
  else None.

Definition lex_step (st : lex_state) (c : ascii) (out : list token)
  : option (lex_state * list token) :=
  match st with
  | LStart => lex_start c out
  | LAtom acc =>
      if is_atom_char c then Some (LAtom (c :: acc), out)
      else lex_start c (TAtom (text acc) :: out)
  | LStr acc =>
      if (code c =? 34)%nat then Some (LStart, TString (text acc) :: out)
      else if (code c =? 92)%nat then Some (LEsc acc, out)
      else if (code c <? 32)%nat then None
      else Some (LStr (c :: acc), out)
  | LEsc acc =>
      if (code c =? 117)%nat then Some (LUni acc 0 4, out)
      else match unescape c with
           | Some c' => Some (LStr (c' :: acc), out)
           | None => None
           end
  | LUni acc cp todo =>
      match hex_value c with
      | None => None
      | Some h =>
          let cp' := (16 * cp + h)%nat in
          match todo with
          | S (S todo') => Some (LUni acc cp' (S todo'), out)
          | _ => Some (LStr (rev (utf8 cp') ++ acc), out)
          end
      end
  end.

Fixpoint lex (st : lex_state) (cs : list ascii) (out : list token)
  : option (list token) :=
  match cs with
  | [] =>
      match st with
      | LStart => Some (rev out)
      | LAtom acc => Some (rev (TAtom (text acc) :: out))
      | _ => None
      end
  | c :: cs' =>
      match lex_step st c out with
      | Some (st', out') => lex st' cs' out'
      | None => None
      end
  end.

(** The grammar of a JSON number, as an automaton over its spelling. *)
Inductive num_state : Type :=
| NStart | NMinus | NZero | NInt | NDot | NFrac | NE | NESign | NExp.

Definition num_step (st : num_state) (c : ascii) : option num_state :=
  let n := code c in
  let digit := is_digit c in
  let e := (n =? 101)%nat || (n =? 69)%nat in
  match st with
  | NStart =>
      if (n =? 45)%nat then Some NMinus
      else if (n =? 48)%nat then Some NZero
      else if digit then Some NInt else None
  | NMinus =>
      if (n =? 48)%nat then Some NZero else if digit then Some NInt else None
  | NZero =>
      if (n =? 46)%nat then Some NDot else if e then Some NE else None
  | NInt =>
      if digit then Some NInt
      else if (n =? 46)%nat then Some NDot else if e then Some NE else None
  | NDot => if digit then Some NFrac else None
  | NFrac => if digit then Some NFrac else if e then Some NE else None
  | NE =>
      if (n =? 43)%nat || (n =? 45)%nat then Some NESign
      else if digit then Some NExp else None
  | NESign => if digit then Some NExp else None
  | NExp => if digit then Some NExp else None
  end.

Fixpoint num_run (st : num_state) (s : string) : bool :=
  match s with
  | EmptyString =>
      match st with NZero | NInt | NFrac | NExp => true | _ => false end
  | String c s' =>
      match num_step st c with
      | Some st' => num_run st' s'
      | None => false
      end
  end.

Definition atom_value (a : string) : option json :=
  if String.eqb a "null" then Some JNull
  else if String.eqb a "true" then Some (JBool true)
  else if String.eqb a "false" then Some (JBool false)
  else if String.eqb a "NaN" || String.eqb a "Infinity" || String.eqb a "-Infinity"
  then Some (JNumber a)
  else if num_run NStart a then Some (JNumber a)
  else None.

(** The stack machine: a frame per array or object still open. *)
Inductive frame : Type :=
| FArr (items : list json)
| FObj (members : list (string * json))
| FMember (members : list (string * json)) (key : string).

Inductive state : Type :=
| SValue (may_close : bool)
| SArrNext
| SKey (may_close : bool)
| SColon
| SObjNext
| SDone (v : json).

(** A value is complete: hand it to the frame that waits for it. *)
Definition complete (v : json) (stack : list frame) : option (state * list frame) :=
  match stack with
  | [] => Some (SDone v, [])
  | FArr items :: stack' => Some (SArrNext, FArr (v :: items) :: stack')
  | FMember ms k :: stack' => Some (SObjNext, FObj ((k, v) :: ms) :: stack')
  | FObj _ :: _ => None
  end.

Definition parse_step (st : state) (stack : list frame) (t : token)
  : option (state * list frame) :=
  match st, t with
  | SValue _, TString s => complete (JString s) stack
  | SValue _, TAtom a =>
      match atom_value a with
      | Some v => complete v stack
      | None => None
      end
  | SValue _, TLBracket => Some (SValue true, FArr [] :: stack)
  | SValue _, TLBrace => Some (SKey true, FObj [] :: stack)
  | SValue true, TRBracket =>
      match stack with
      | FArr [] :: stack' => complete (JArray []) stack'
      | _ => None
      end
  | SArrNext, TComma => Some (SValue false, stack)
  | SArrNext, TRBracket =>
      match stack with
      | FArr items :: stack' => complete (JArray (rev items)) stack'
      | _ => None
      end
  | SKey _, TString k =>
      match stack with
      | FObj ms :: stack' => Some (SColon, FMember ms k :: stack')
      | _ => None
      end
  | SKey true, TRBrace =>
      match stack with
      | FObj [] :: stack' => complete (JObject []) stack'
      | _ => None
      end
  | SColon, TColon => Some (SValue false, stack)
  | SObjNext, TComma => Some (SKey false, stack)
  | SObjNext, TRBrace =>
      match stack with
      | FObj ms :: stack' => complete (JObject (rev ms)) stack'
      | _ => None
      end
  | _, _ => None
  end.

Fixpoint parse (st : state) (stack : list frame) (ts : list token) : option json :=
  match ts with
  | [] => match st with SDone v => Some v | _ => None end
  | t :: ts' =>
      match parse_step st stack t with
      | Some (st', stack') => parse st' stack' ts'
      | None => None
      end
  end.

(** [json.loads(s)] *)
Definition loads (s : string) : result json :=
  match lex LStart (list_ascii_of_string s) [] with
  | None => Raise JSONDecodeError
  | Some ts =>
      match parse (SValue false) [] ts with
      | Some v => Ok v
      | None => Raise JSONDecodeError
      end
  end.

End Json.


(** ** The settings models *)

(** [pathlib.Path(s)], kept as the text it was built from. *)
Record Path : Type := MkPath { path_str : string }.

Record ConfluenceConfig : Type := mkConfluenceConfig {
  url : string;
  api_token : string;
  space_key : string;
  username : option string
}.

Record SyncConfig : Type := mkSyncConfig {
  confluence : ConfluenceConfig;
  local_path : Path;
  ignore_patterns : list string
}.

(** The outcome of validating one field: its value, or what is wrong. *)
Inductive checked (A : Type) : Type :=
| Valid (a : A)
| Invalid (errs : list ErrorDetails).
Arguments Valid {A} a.
Arguments Invalid {A} errs.

Definition errors_of {A} (c : checked A) : list ErrorDetails :=
  match c with
  | Valid _ => []
  | Invalid errs => errs
  end.

Definition one_error {A} (at_ : list loc_item) (kind : string) : checked A :=
  Invalid [mkError at_ kind].

(** [name: str = Field(...)] *)
Definition str_required (at_ : list loc_item) (v : option pyval) : checked string :=
  match v with
  | None => one_error at_ "missing"
  | Some (PStr s) => Valid s
  | Some _ => one_error at_ "string_type"
  end.

(** [name: Optional[str] = Field(None)] *)
Definition str_optional (at_ : list loc_item) (v : option pyval)
  : checked (option string) :=
  match v with
  | None | Some PNone => Valid None
  | Some (PStr s) => Valid (Some s)
  | Some _ => one_error at_ "string_type"
  end.

(** [name: Path = Field(default=...)] *)
Definition path_default (dflt : Path) (at_ : list loc_item) (v : option pyval)
  : checked Path :=
  match v with
  | None => Valid dflt
  | Some (PStr s) => Valid (MkPath s)
  | Some _ => one_error at_ "path_type"
  end.

(** The items of a [list[str]], each checked at its index. *)
Fixpoint str_items (at_ : list loc_item) (i : nat) (l : list pyval)
  : checked (list string) :=
  match l with
  | [] => Valid []
  | x :: l' =>
      let rest := str_items at_ (S i) l' in
      match x, rest with
      | PStr s, Valid ss => Valid (s :: ss)
      | PStr _, Invalid errs => Invalid errs
      | _, _ => Invalid (mkError (at_ ++ [LocIndex i]) "string_type" :: errors_of rest)
      end
  end.

(** [name: list[str] = Field(default_factory=list)] *)
Definition str_list_default (at_ : list loc_item) (v : option pyval)
  : checked (list string) :=
  match v with
  | None => Valid []
  | Some (PList l) => str_items at_ 0 l
  | Some _ => one_error at_ "list_type"
  end.

Definition key (name : string) : pyval := PStr name.

(** Validation of a mapping against [ConfluenceConfig]. *)
Definition ConfluenceConfig_validate (at_ : list loc_item) (d : pydict)
  : checked ConfluenceConfig :=
  let f_url := str_required (at_ ++ [LocField "url"]) (dict_get (key "url") d) in
  let f_api_token :=
    str_required (at_ ++ [LocField "api_token"]) (dict_get (key "api_token") d) in
  let f_space_key :=
    str_required (at_ ++ [LocField "space_key"]) (dict_get (key "space_key") d) in
  let f_username :=
    str_optional (at_ ++ [LocField "username"]) (dict_get (key "username") d) in
  match f_url, f_api_token, f_space_key, f_username with
  | Valid u, Valid t, Valid k, Valid n => Valid (mkConfluenceConfig u t k n)
  | _, _, _, _ =>
      Invalid (errors_of f_url ++ errors_of f_api_token
               ++ errors_of f_space_key ++ errors_of f_username)
  end.

(** [confluence: ConfluenceConfig] *)
Definition confluence_required (at_ : list loc_item) (v : option pyval)
  : checked ConfluenceConfig :=
  match v with
  | None => one_error at_ "missing"
  | Some (PDict d) => ConfluenceConfig_validate at_ d
  | Some _ => one_error at_ "model_type"
  end.

(** Validation of a mapping against [SyncConfig]. *)
Definition SyncConfig_validate (d : pydict) : checked SyncConfig :=
  let f_confluence :=
    confluence_required [LocField "confluence"] (dict_get (key "confluence") d) in
  let f_local_path :=
    path_default (MkPath "docs") [LocField "local_path"]
                 (dict_get (key "local_path") d) in
  let f_ignore_patterns :=
    str_list_default [LocField "ignore_patterns"]
                     (dict_get (key "ignore_patterns") d) in
  match f_confluence, f_local_path, f_ignore_patterns with
  | Valid c, Valid p, Valid i => Valid (mkSyncConfig c p i)
  | _, _, _ =>
      Invalid (errors_of f_confluence ++ errors_of f_local_path
               ++ errors_of f_ignore_patterns)
  end.

(** [SyncConfig] called with the entries of [config_data] as keyword
    arguments: each key must be a str; then the model validates the
    mapping. *)
Definition SyncConfig_init (config_data : pydict) : result SyncConfig :=
  if forallb (fun kv => isinstance_str (fst kv)) config_data then
    match SyncConfig_validate config_data with
    | Valid c => Ok c
    | Invalid errs => Raise (ValidationError "SyncConfig" errs)
    end
  else Raise (TypeError "keywords must be strings").

(** Whether a validation report mentions the field [name] in some
    location, as in the line [confluence.api_token] of its text. *)
Definition loc_item_is (name : string) (i : loc_item) : bool :=
  match i with
  | LocField n => String.eqb n name
  | LocIndex _ => false
  end.

Definition names_field (name : string) (errs : list ErrorDetails) : bool :=
  existsb (fun e => existsb (loc_item_is name) (loc e)) errs.

(** ** The environment *)

(** [Config._get_env] (config.py, lines 90-96) *)
Definition _get_env (environ : gmap string string) (name : string) : option string :=
  match environ !! name with
  | None => None
  | Some value =>
      let value := Str.strip value in
      if Str.nonempty value then Some value else None
  end.

Definition json_is_list (v : Json.json) : bool :=
  match v with Json.JArray _ => true | _ => false end.
Definition json_is_str (v : Json.json) : bool :=
  match v with Json.JString _ => true | _ => false end.
Definition json_items (v : Json.json) : list Json.json :=
  match v with Json.JArray l => l | _ => [] end.
Definition json_text (v : Json.json) : string :=
  match v with Json.JString s => s | _ => EmptyString end.

(** [[x.strip() for x in xs if x.strip()]] *)
Definition strip_and_drop (xs : list string) : list string :=
  map Str.strip (List.filter (fun x => Str.nonempty (Str.strip x)) xs).

(** [Config._parse_ignore_patterns] (config.py, lines 98-109) *)
Definition _parse_ignore_patterns (value : string) : result (list string) :=
  let raw := Str.strip value in
  if Str.startswith "[" raw then
    try! parsed := Json.loads raw in
    if negb (json_is_list parsed) || negb (forallb json_is_str (json_items parsed))
    then Raise (ValueError
      "IGNORE_PATTERNS must be a JSON array of strings or a comma-separated list")
    else Ok (strip_and_drop (map json_text (json_items parsed)))
  else
    let parts := map Str.strip (Str.split "," raw) in
    Ok (List.filter Str.nonempty parts).

(** [if value is not None: obj[name] = value] *)
Definition set_if_set (obj : pyval) (name : string) (value : option string)
  : result pyval :=
  match value with
  | Some v => setitem obj (key name) (PStr v)
  | None => Ok obj
  end.

Definition not_a_mapping : exn :=
  ValueError "Invalid config: 'confluence' must be a mapping/object".

(** The first two statements of [_overlay_env] after the copy:
    [confluence = dict(out.get("confluence") or {})]. *)
Definition confluence_of (out : pydict) : result pyval :=
  py_dict (py_or (default PNone (dict_get (key "confluence") out)) (PDict [])).

(** [Config._overlay_env] (config.py, lines 53-88). The copy [dict(config_data)] is the mapping
    itself: values here are immutable, so a copy and its original cannot
    be told apart. *)
Definition _overlay_env (environ : gmap string string) (config_data : pydict)
  : result pydict :=
  let out := config_data in
  try! confluence := confluence_of out in
  if truthy confluence && negb (isinstance_dict confluence)
  then Raise not_a_mapping
  else
    let url := _get_env environ "CONFLUENCE_URL" in
    let api_token := _get_env environ "CONFLUENCE_API_TOKEN" in
    let space_key := _get_env environ "CONFLUENCE_SPACE_KEY" in
    let username := _get_env environ "CONFLUENCE_USERNAME" in
    try! confluence := set_if_set confluence "url" url in
    try! confluence := set_if_set confluence "api_token" api_token in
    try! confluence := set_if_set confluence "space_key" space_key in
    try! confluence := set_if_set confluence "username" username in
    let out :=
      if truthy confluence then dict_set (key "confluence") confluence out
      else out in
    let local_path := _get_env environ "LOCAL_PATH" in
    let out :=
      match local_path with
      | Some p => dict_set (key "local_path") (PStr p) out
      | None => out
      end in
    let ignore_patterns_raw := _get_env environ "IGNORE_PATTERNS" in
    match ignore_patterns_raw with
    | Some raw =>
        try! patterns := _parse_ignore_patterns raw in
        Ok (dict_set (key "ignore_patterns") (PList (map PStr patterns)) out)
    | None => Ok out
    end.

(** ** The loader *)

(** What [yaml.safe_load] makes of a file. *)
Inductive yaml_file : Type :=
| Malformed
| Document (v : pyval).

(** The [Config] object. *)
Record Config : Type := mkConfig {
  config_path : Path;
  _config : option SyncConfig
}.

(** The object together with the world it acts on. *)
Record machine : Type := mkMachine {
  self : Config;
  files : gmap string yaml_file;
  environ : gmap string string
}.

(** A method: it returns or raises, and leaves a machine behind. *)
Definition M (A : Type) : Type := machine -> result A * machine.

Definition ret {A} (a : A) : M A := fun m => (Ok a, m).
Definition raise {A} (e : exn) : M A := fun m => (Raise e, m).
Definition bind {A B} (c : M A) (k : A -> M B) : M B :=
  fun m =>
    match c m with
    | (Ok a, m') => k a m'
    | (Raise e, m') => (Raise e, m')
    end.
Definition lift {A} (r : result A) : M A := fun m => (r, m).
Definition gets {A} (f : machine -> A) : M A := fun m => (Ok (f m), m).
Definition modify (f : machine -> machine) : M unit := fun m => (Ok tt, f m).

Notation "'do!' x := c 'in' k" := (bind c (fun x => k))
  (at level 10, x name, c at level 100, k at level 200).

(** [Config.__init__] (config.py, lines 26-28) *)
Definition Config_init (config_path : option Path) : Config :=
  mkConfig (default (MkPath "confluence-sync.yml") config_path) None.

Definition set_config (c : option SyncConfig) (m : machine) : machine :=
  mkMachine (mkConfig (config_path (self m)) c) (files m) (environ m).

Definition write_file (p : Path) (doc : pyval) (m : machine) : machine :=
  mkMachine (self m) (<[path_str p := Document doc]> (files m)) (environ m).

(** [yaml.safe_load] on the opened file. *)
Definition yaml_safe_load (f : yaml_file) : M pyval :=
  match f with
  | Malformed => raise YAMLError
  | Document v => ret v
  end.

Definition not_a_mapping_file (p : Path) : exn :=
  ValueError ("Config file must contain a YAML mapping/object: " ++ path_str p).

(** The part of [load] that reads the file into [config_data]
    (config.py, lines 39-47). *)
Definition read_config_data : M pydict :=
  do! path := gets (fun m => config_path (self m)) in
  do! file := gets (fun m => files m !! path_str path) in
  match file with
  | Some f =>
      do! loaded := yaml_safe_load f in
      if truthy loaded then
        match loaded with
        | PDict d => ret d
        | _ => raise (not_a_mapping_file path)
        end
      else ret []
  | None => ret []
  end.

(** [load] up to and including the overlay of the environment
    (config.py, lines 39-49). *)
Definition merged_config : M pydict :=
  do! config_data := read_config_data in
  do! env := gets environ in
  lift (_overlay_env env config_data).

(** [Config.load] (config.py, lines 30-51) *)
Definition load : M SyncConfig :=
  do! config_data := merged_config in
  do! config := lift (SyncConfig_init config_data) in
  do! _ := modify (set_config (Some config)) in
  ret config.

Definition template : pyval :=
  PDict [
    (key "confluence", PDict [
       (key "url", PStr "https://your-domain.atlassian.net");
       (key "api_token", PStr "your-api-token");
       (key "space_key", PStr "YOUR_SPACE_KEY")]);
    (key "local_path", PStr "docs");
    (key "ignore_patterns", PList [PStr "*.tmp"; PStr ".git/*"])].

(** [Config.save_template] (config.py, lines 111-126) *)
Definition save_template : M unit :=
  do! path := gets (fun m => config_path (self m)) in
  modify (write_file path template).

(** [Config.save_interactive_config] (config.py, lines 128-150) *)
Definition save_interactive_config (url api_token space_key : string)
    (local_path : string) (username : option string) : M unit :=
  let confluence_config :=
    [(key "url", PStr url); (key "api_token", PStr api_token);
     (key "space_key", PStr space_key)] in
  let confluence_config :=
    match username with
    | Some u => if Str.nonempty u
                then dict_set (key "username") (PStr u) confluence_config
                else confluence_config
    | None => confluence_config
    end in
  let config_data :=
    PDict [
      (key "confluence", PDict confluence_config);
      (key "local_path", PStr local_path);
      (key "ignore_patterns", PList [PStr "*.tmp"; PStr ".git/*"; PStr ".DS_Store"])] in
  do! path := gets (fun m => config_path (self m)) in
  modify (write_file path config_data).

(** The property [Config.config] (config.py, lines 152-156) *)
Definition config : M SyncConfig :=
  do! cached := gets (fun m => _config (self m)) in
  match cached with
  | Some c => ret c
  | None =>
      do! c := load in
      do! _ := modify (set_config (Some c)) in
      ret c
  end.

(** ** Vocabulary of the specification *)

(** The six variables the loader reads. *)
Definition env_names : list string :=
  ["CONFLUENCE_URL"; "CONFLUENCE_API_TOKEN"; "CONFLUENCE_SPACE_KEY";
   "CONFLUENCE_USERNAME"; "LOCAL_PATH"; "IGNORE_PATTERNS"].

(** The outcome is a pydantic validation error. *)
Definition fails_validation {A} (r : result A) : bool :=
  match r with
  | Raise (ValidationError _ _) => true
  | _ => false
  end.

(** The outcome is the exception of the mapping check in [_overlay_env]. *)
Definition raises_not_a_mapping {A} (r : result A) : bool :=
  match r with
  | Raise (ValueError msg) =>
      String.eqb msg "Invalid config: 'confluence' must be a mapping/object"
  | _ => false
  end.

(** The outcome is a validation error whose report mentions [name]. *)
Definition fails_naming {A} (name : string) (r : result A) : bool :=
  match r with
  | Raise (ValidationError _ errs) => names_field name errs
  | _ => false
  end.

(** "Trim white space and drop empty entries", in the words of the
    specification. *)
Definition trimmed_entries (xs : list string) : list string :=
  List.filter Str.nonempty (map Str.strip xs).

Definition json_strings (v : Json.json) : option (list string) :=
  match v with
  | Json.JArray items =>
      if forallb json_is_str items then Some (map json_text items) else None
  | _ => None
  end.

(** The parsing of [IGNORE_PATTERNS] as the specification words it: a
    JSON array of strings when the text starts with a bracket, a
    comma-separated list otherwise, trimmed and without empty entries. *)
Definition ignore_patterns_spec (raw : string) : result (list string) :=
  if Str.startswith "[" raw then
    match Json.loads raw with
    | Ok v =>
        match json_strings v with
        | Some xs => Ok (trimmed_entries xs)
        | None => Raise (ValueError
            "IGNORE_PATTERNS must be a JSON array of strings or a comma-separated list")
        end
    | Raise e => Raise e
    end
  else Ok (trimmed_entries (Str.split "," raw)).

(** The settings the template stands for. *)
Definition template_config : SyncConfig :=
  mkSyncConfig
    (mkConfluenceConfig "https://your-domain.atlassian.net" "your-api-token"
                        "YOUR_SPACE_KEY" None)
    (MkPath "docs") ["*.tmp"; ".git/*"].

(** The value of a field of the [confluence] mapping of a merged
    configuration, if the mapping and the field are there. *)
Definition merged_field (name : string) (merged : pydict) : option pyval :=
  match dict_get (key "confluence") merged with
  | Some (PDict c) => dict_get (key name) c
  | _ => None
  end.

(** The value of a field of the [confluence] section of the file, as
    [_overlay_env] reads that section. *)
Definition file_field (name : string) (config_data : pydict) : option pyval :=
  match confluence_of config_data with
  | Ok (PDict c) => dict_get (key name) c
  | _ => None
  end.

(** A machine with a given document at the default path. *)
Definition machine_with (doc : option pyval) (env : list (string * string))
  : machine :=
  mkMachine (Config_init None)
            (match doc with
             | Some v => {[ "confluence-sync.yml" := Document v ]}
             | None => ∅
             end)
            (list_to_map env).

(** [_overlay_env] in two parts, for a [confluence] value that is a
    dict: the four assignments into it, then what is done to [out]. *)
Definition set_opt (name : string) (value : option string) (d : pydict) : pydict :=
  match value with
  | Some v => dict_set (key name) (PStr v) d
  | None => d
  end.

Definition overlay_confluence (environ : gmap string string) (c : pydict) : pydict :=
  set_opt "username" (_get_env environ "CONFLUENCE_USERNAME")
    (set_opt "space_key" (_get_env environ "CONFLUENCE_SPACE_KEY")
       (set_opt "api_token" (_get_env environ "CONFLUENCE_API_TOKEN")
          (set_opt "url" (_get_env environ "CONFLUENCE_URL") c))).

Definition overlay_local (environ : gmap string string) (out c : pydict) : pydict :=
  let out :=
    match c with
    | [] => out
    | _ => dict_set (key "confluence") (PDict c) out
    end in
  match _get_env environ "LOCAL_PATH" with
  | Some p => dict_set (key "local_path") (PStr p) out
  | None => out
  end.

Definition overlay_patterns (environ : gmap string string) (out : pydict)
  : result pydict :=
  match _get_env environ "IGNORE_PATTERNS" with
  | Some raw =>
      try! patterns := _parse_ignore_patterns raw in
      Ok (dict_set (key "ignore_patterns") (PList (map PStr patterns)) out)
  | None => Ok out
  end.

(** The path of the configuration file, as the key of [files]. *)
Definition path_of (m : machine) : string := path_str (config_path (self m)).

(** No variable the loader reads is set to something it would use. *)
Definition env_unset (environ : gmap string string) : Prop :=
  forall name, In name env_names -> _get_env environ name = None.

(** A method followed by another, as two calls in a row. *)
Definition and_then {A B} (first : M A) (second : M B) : M B :=
  do! _ := first in second.

(** The machine without the file at the configuration path. *)
Definition without_file (m : machine) : machine :=
  mkMachine (self m) (delete (path_of m) (files m)) (environ m).

(** A file that holds an empty YAML list, with the three required
    settings in the environment. *)
Definition empty_list_machine : machine :=
  machine_with (Some (PList []))
    [("CONFLUENCE_URL", "b"); ("CONFLUENCE_API_TOKEN", "t");
     ("CONFLUENCE_SPACE_KEY", "K")].

(** The three settings that [ConfluenceConfig] requires. *)
Definition required_fields : list string := ["url"; "api_token"; "space_key"].

(** Every key of the mapping is a str, so that it can be passed as
    keyword arguments. *)
Definition str_keys (d : pydict) : bool :=
  forallb (fun kv => isinstance_str (fst kv)) d.

(** The field [name] of the merged [confluence] mapping holds a str. *)
Definition has_str_field (name : string) (merged : pydict) : bool :=
  match merged_field name merged with
  | Some (PStr _) => true
  | _ => false
  end.



(** A file whose [url] is the empty string. *)
Definition empty_url_machine : machine :=
  machine_with
    (Some (PDict [(key "confluence",
                   PDict [(key "url", PStr EmptyString);
                          (key "api_token", PStr "t");
                          (key "space_key", PStr "k")])]))
    [].

Definition empty_url_config : SyncConfig :=
  mkSyncConfig (mkConfluenceConfig EmptyString "t" "k" None) (MkPath "docs") [].

(** A [confluence] section without [api_token]. *)
Definition missing_token_section : pydict :=
  [(key "confluence",
    PDict [(key "url", PStr "u"); (key "space_key", PStr "k")])].

Definition missing_token_machine : machine :=
  machine_with (Some (PDict missing_token_section)) [].

(** The same file, with an [IGNORE_PATTERNS] that is not JSON. *)
Definition bad_patterns_machine : machine :=
  machine_with (Some (PDict missing_token_section)) [("IGNORE_PATTERNS", "[")].

(** A file with no [confluence] section at all. *)
Definition no_section_machine : machine :=
  machine_with (Some (PDict [(key "local_path", PStr "docs")])) [].

(** ** Vocabulary of the further properties *)

(** The [username] that [save_interactive_config] writes: none when the
    argument is [None] or the empty string. *)
Definition written_username (username : option string) : option string :=
  match username with
  | Some u => if Str.nonempty u then Some u else None
  | None => None
  end.

(** The settings [save_interactive_config] stands for. *)
Definition interactive_config (u t k lp : string) (un : option string)
  : SyncConfig :=
  mkSyncConfig (mkConfluenceConfig u t k (written_username un)) (MkPath lp)
               ["*.tmp"; ".git/*"; ".DS_Store"].

(** The patterns the environment gives: those of [IGNORE_PATTERNS] when
    it is set, none otherwise. *)
Definition env_patterns (environ : gmap string string) : result (list string) :=
  match _get_env environ "IGNORE_PATTERNS" with
  | Some raw => _parse_ignore_patterns raw
  | None => Ok []
  end.

(** The settings the environment alone stands for, given the three
    required values. *)
Definition env_config (environ : gmap string string) (u t k : string)
  : result SyncConfig :=
  try! patterns := env_patterns environ in
  Ok (mkSyncConfig
        (mkConfluenceConfig u t k (_get_env environ "CONFLUENCE_USERNAME"))
        (MkPath (default "docs" (_get_env environ "LOCAL_PATH")))
        patterns).

(** What [load] leaves behind for a given outcome of the validation. *)
Definition finish (m : machine) (r : result SyncConfig)
  : result SyncConfig * machine :=
  match r with
  | Ok c => (Ok c, set_config (Some c) m)
  | Raise e => (Raise e, m)
  end.

(** No file, and an environment with the three required settings and a
    path. *)
Definition env_only_machine : machine :=
  machine_with None
    [("CONFLUENCE_URL", "u"); ("CONFLUENCE_API_TOKEN", "t");
     ("CONFLUENCE_SPACE_KEY", "k"); ("LOCAL_PATH", "wiki")].

(** * Properties *)

(** ** Strings *)






(** ** Dictionaries *)

Lemma key_eqb_key k a : key_eqb k (key a) = true <-> k = key a.
Proof.
  unfold key. destruct k as [|b|z|s|l|d]; simpl;
    try (split; [discriminate | intros H; discriminate H]).
  rewrite String.eqb_eq. split; congruence.
Qed.

Lemma key_eqb_key_refl a : key_eqb (key a) (key a) = true.
Proof. apply key_eqb_key. reflexivity. Qed.

Lemma dict_get_set_same a v d :
  dict_get (key a) (dict_set (key a) v d) = Some v.
Proof.
  induction d as [|[k w] d IH]; cbn [dict_get dict_set].
  - rewrite key_eqb_key_refl. reflexivity.
  - destruct (key_eqb k (key a)) eqn:E; cbn [dict_get]; rewrite E;
      [reflexivity | exact IH].
Qed.

Lemma key_eqb_key_ne a b : a <> b -> key_eqb (key a) (key b) = false.
Proof.
  intros H. destruct (key_eqb (key a) (key b)) eqn:E; [|reflexivity].
  apply key_eqb_key in E. unfold key in E. congruence.
Qed.

Lemma dict_get_set_other a b v d :
  a <> b -> dict_get (key b) (dict_set (key a) v d) = dict_get (key b) d.
Proof.
  intros Hab. induction d as [|[k w] d IH]; cbn [dict_get dict_set].
  - rewrite (key_eqb_key_ne a b Hab). reflexivity.
  - destruct (key_eqb k (key a)) eqn:E; cbn [dict_get].
    + apply key_eqb_key in E. subst k.
      rewrite (key_eqb_key_ne a b Hab). reflexivity.
    + destruct (key_eqb k (key b)); [reflexivity | exact IH].
Qed.

Lemma set_opt_same a o d :
  dict_get (key a) (set_opt a o d) =
  match o with Some v => Some (PStr v) | None => dict_get (key a) d end.
Proof. destruct o; simpl; [apply dict_get_set_same | reflexivity]. Qed.

Lemma set_opt_other a b o d :
  a <> b -> dict_get (key b) (set_opt a o d) = dict_get (key b) d.
Proof. intros H. destruct o; simpl; [apply dict_get_set_other, H | reflexivity]. Qed.

Lemma dict_set_nonempty k v d : dict_set k v d <> [].
Proof. destruct d as [|[k' v'] d]; simpl; [|destruct (key_eqb k' k)]; discriminate. Qed.

(** ** The builtin [dict] *)

Lemma update_from_seq_raises i l acc e :
  update_from_seq i l acc = Raise e ->
  forall A, raises_not_a_mapping (@Raise A e) = false.
Proof.
  revert i acc. induction l as [|x l IH]; intros i acc; simpl; [discriminate|].
  unfold update_item.
  destruct (iterate x) as [[|k [|v [|w items]]]|]; simpl;
    try (intros [= <-] A; reflexivity).
  destruct (hashable k); simpl; [apply IH | intros [= <-] A; reflexivity].
Qed.

Lemma py_dict_raises v e :
  py_dict v = Raise e -> forall A, raises_not_a_mapping (@Raise A e) = false.
Proof.
  destruct v; simpl; try (intros [= <-] A; reflexivity).
  - destruct (update_from_seq 0 (chars s) []) eqn:E; simpl; [discriminate|].
    intros [= <-]. eapply update_from_seq_raises, E.
  - destruct (update_from_seq 0 l []) eqn:E; simpl; [discriminate|].
    intros [= <-]. eapply update_from_seq_raises, E.
Qed.

Lemma py_dict_returns_dict v c : py_dict v = Ok c -> exists d, c = PDict d.
Proof.
  destruct v; simpl; try discriminate.
  - destruct (update_from_seq 0 (chars s) []); simpl; [|discriminate].
    intros [= <-]. eauto.
  - destruct (update_from_seq 0 l []); simpl; [|discriminate].
    intros [= <-]. eauto.
  - intros [= <-]. eauto.
Qed.

(** ** [_overlay_env] *)

Lemma set_if_set_dict d name value :
  set_if_set (PDict d) name value = Ok (PDict (set_opt name value d)).
Proof. destruct value; reflexivity. Qed.

Lemma overlay_env_dict environ config_data c :
  confluence_of config_data = Ok (PDict c) ->
  _overlay_env environ config_data =
  overlay_patterns environ
    (overlay_local environ config_data (overlay_confluence environ c)).
Proof.
  intros H. unfold _overlay_env. rewrite H. cbn [rbind truthy isinstance_dict negb].
  rewrite andb_false_r.
  repeat (rewrite set_if_set_dict; cbn [rbind]).
  unfold overlay_patterns, overlay_local.
  fold (overlay_confluence environ c).
  destruct (overlay_confluence environ c); reflexivity.
Qed.

Lemma overlay_env_raises environ config_data e :
  confluence_of config_data = Raise e -> _overlay_env environ config_data = Raise e.
Proof. intros H. unfold _overlay_env. rewrite H. reflexivity. Qed.

(** ** [_parse_ignore_patterns] *)

Lemma loads_raises s e : Json.loads s = Raise e -> e = JSONDecodeError.
Proof.
  unfold Json.loads.
  destruct (Json.lex _ _ _) as [ts|]; [|congruence].
  destruct (Json.parse _ _ ts); congruence.
Qed.

Lemma strip_and_drop_trimmed xs : strip_and_drop xs = trimmed_entries xs.
Proof.
  unfold strip_and_drop, trimmed_entries.
  induction xs as [|x xs IH]; simpl; [reflexivity|].
  destruct (Str.nonempty (Str.strip x)); simpl; rewrite IH; reflexivity.
Qed.


Lemma parse_ignore_patterns_eq value :
  _parse_ignore_patterns value = ignore_patterns_spec (Str.strip value).
Proof.
  unfold _parse_ignore_patterns, ignore_patterns_spec.
  destruct (Str.startswith "[" (Str.strip value)); [|reflexivity].
  destruct (Json.loads (Str.strip value)) as [v|e]; [|reflexivity].
  cbn [rbind].
  destruct v as [| | | |items|]; try reflexivity.
  cbn [json_is_list json_items json_strings negb orb].
  destruct (forallb json_is_str items); cbn [negb];
    [rewrite strip_and_drop_trimmed|]; reflexivity.
Qed.

Lemma ignore_patterns_spec_raises raw e :
  ignore_patterns_spec raw = Raise e ->
  forall A, raises_not_a_mapping (@Raise A e) = false.
Proof.
  unfold ignore_patterns_spec.
  destruct (Str.startswith "[" raw); [|discriminate].
  destruct (Json.loads raw) as [v|e'] eqn:E.
  - destruct (json_strings v); [discriminate|]. intros [= <-] A. reflexivity.
  - intros [= <-] A. apply loads_raises in E. subst e'. reflexivity.
Qed.




(** ** The mapping check of [_overlay_env] *)

(** C10. The statement that raises "Invalid config: 'confluence' must
    be a mapping/object" cannot be reached: whenever the construction of
    [confluence] returns, it returns a dict, so the test that guards the
    statement is false; when the construction raises, [_overlay_env]
    raises that exception; and [_overlay_env] never raises the exception of
    the guarded statement. *)
Theorem overlay_mapping_check_unreachable
    (environ : gmap string string) (config_data : pydict) :
  match confluence_of config_data with
  | Ok confluence =>
      isinstance_dict confluence = true
      /\ truthy confluence && negb (isinstance_dict confluence) = false
  | Raise e => _overlay_env environ config_data = Raise e
  end
  /\ raises_not_a_mapping (_overlay_env environ config_data) = false.
Proof.
  destruct (confluence_of config_data) as [c|e] eqn:E.
  - destruct (py_dict_returns_dict _ _ E) as [d ->].
    split; [split; [reflexivity | apply andb_false_r]|].
    rewrite (overlay_env_dict _ _ _ E). unfold overlay_patterns.
    destruct (_get_env environ "IGNORE_PATTERNS") as [raw|]; [|reflexivity].
    rewrite parse_ignore_patterns_eq.
    destruct (ignore_patterns_spec (Str.strip raw)) eqn:P; [reflexivity|].
    cbn [rbind]. eapply ignore_patterns_spec_raises, P.
  - rewrite (overlay_env_raises _ _ _ E). split; [reflexivity|].
    eapply py_dict_raises, E.
Qed.

(** ** The loader, step by step *)

Lemma read_config_data_eq m :
  read_config_data m =
  (match files m !! path_of m with
   | Some Malformed => Raise YAMLError
   | Some (Document v) =>
       if truthy v then
         match v with
         | PDict d => Ok d
         | _ => Raise (not_a_mapping_file (config_path (self m)))
         end
       else Ok []
   | None => Ok []
   end, m).
Proof.
  unfold read_config_data, bind, gets, path_of.
  destruct (files m !! path_str (config_path (self m))) as [[|v]|]; try reflexivity.
  unfold yaml_safe_load, ret, raise.
  destruct (truthy v); [|reflexivity]. destruct v; reflexivity.
Qed.

Lemma merged_config_eq m :
  merged_config m =
  (try! config_data := fst (read_config_data m) in
   _overlay_env (environ m) config_data, m).
Proof.
  unfold merged_config, bind, gets, lift. rewrite read_config_data_eq.
  cbn [fst]. destruct (files m !! path_of m) as [[|v]|]; try reflexivity.
  destruct (truthy v); [|reflexivity]. destruct v; reflexivity.
Qed.

Lemma load_eq m :
  load m =
  match fst (merged_config m) with
  | Ok config_data =>
      match SyncConfig_init config_data with
      | Ok config => (Ok config, set_config (Some config) m)
      | Raise e => (Raise e, m)
      end
  | Raise e => (Raise e, m)
  end.
Proof.
  unfold load, bind, lift, modify, ret. rewrite merged_config_eq. cbn [fst].
  destruct (rbind _ _) as [d|e]; [|reflexivity].
  destruct (SyncConfig_init d); reflexivity.
Qed.

(** ** Atomicity of [load] with respect to the cache *)

(** C8. Whatever the cached settings were, [load] either returns the
    settings it has just validated and leaves exactly them in the cache
    (and touches nothing else), or raises and leaves the whole machine,
    the cache included, as it was. *)
Theorem load_atomic (m : machine) :
  match load m with
  | (Ok config, m') =>
      _config (self m') = Some config
      /\ (exists config_data,
            fst (merged_config m) = Ok config_data
            /\ SyncConfig_init config_data = Ok config)
      /\ config_path (self m') = config_path (self m)
      /\ files m' = files m
      /\ environ m' = environ m
  | (Raise _, m') => m' = m
  end.
Proof.
  rewrite load_eq.
  destruct (fst (merged_config m)) as [d|e]; [|reflexivity].
  destruct (SyncConfig_init d) as [c|e] eqn:E; [|reflexivity].
  cbn. repeat split; try reflexivity. exists d. split; [reflexivity | exact E].
Qed.

(** ** [load] without overrides *)

Lemma env_unset_get environ name :
  env_unset environ -> In name env_names -> _get_env environ name = None.
Proof. intros H. apply H. Qed.

Lemma overlay_env_unset environ config_data :
  env_unset environ ->
  _overlay_env environ config_data =
  match confluence_of config_data with
  | Ok (PDict (x :: c)) =>
      Ok (dict_set (key "confluence") (PDict (x :: c)) config_data)
  | Ok _ => Ok config_data
  | Raise e => Raise e
  end.
Proof.
  intros H. destruct (confluence_of config_data) as [v|e] eqn:E.
  - destruct (py_dict_returns_dict _ _ E) as [c ->].
    rewrite (overlay_env_dict _ _ _ E).
    unfold overlay_patterns, overlay_local, overlay_confluence.
    rewrite !(env_unset_get environ) by (try exact H; cbn; tauto).
    destruct c; reflexivity.
  - apply overlay_env_raises, E.
Qed.

(** ** The template *)

(** C1, as the code has it. After [save_template], [load] on the same
    path with no override from the environment succeeds: it returns the
    settings of the template, value for value, and caches them. *)
Theorem load_after_save_template (m : machine) :
  env_unset (environ m) ->
  and_then save_template load m =
  (Ok template_config,
   set_config (Some template_config)
              (write_file (config_path (self m)) template m)).
Proof.
  intros H.
  change (and_then save_template load m)
    with (load (write_file (config_path (self m)) template m)).
  set (m1 := write_file (config_path (self m)) template m).
  rewrite load_eq, merged_config_eq, read_config_data_eq. cbn [fst].
  replace (files m1 !! path_of m1) with (Some (Document template))
    by (symmetry; apply lookup_insert_eq).
  cbn [truthy template rbind].
  rewrite (overlay_env_unset (environ m1)) by exact H.
  reflexivity.
Qed.

Lemma load_after_save_template_witness :
  and_then save_template load (machine_with None []) =
  (Ok template_config,
   set_config (Some template_config)
     (write_file (MkPath "confluence-sync.yml") template (machine_with None []))).
Proof.
  apply (load_after_save_template (machine_with None [])).
  intros name Hn. cbn in Hn. decompose [or] Hn; subst; try reflexivity; contradiction.
Defined.

(** C1, as stated, fails: on a machine with no file and an empty
    environment, [load] after [save_template] returns the settings of the
    template; it does not fail validation. *)
Lemma template_loads_without_error :
  fst (and_then save_template load (machine_with None [])) = Ok template_config
  /\ fails_validation (fst (and_then save_template load (machine_with None [])))
     = false.
Proof. split; reflexivity. Qed.

(** ** A file that is not a mapping *)

Lemma without_file_lookup m : files (without_file m) !! path_of (without_file m) = None.
Proof. unfold without_file, path_of. cbn. apply lookup_delete_eq. Qed.

(** C3, as the code has it. When the file holds a value that is not a
    mapping, [load] raises the [ValueError] of the mapping check exactly
    when that value is true in Python (a non-empty list or str, a non-zero
    number, [True]); when it is false (an empty list or str, zero, [False],
    [None]) the file counts for nothing: [load] does what it does when the
    file is absent. *)
Theorem load_non_mapping_file (m : machine) (v : pyval) :
  files m !! path_of m = Some (Document v) ->
  isinstance_dict v = false ->
  if truthy v
  then load m = (Raise (not_a_mapping_file (config_path (self m))), m)
  else fst (load m) = fst (load (without_file m))
       /\ self (snd (load m)) = self (snd (load (without_file m))).
Proof.
  intros Hf Hd. rewrite !load_eq, !merged_config_eq, !read_config_data_eq.
  rewrite without_file_lookup, Hf. cbn [fst rbind].
  destruct (truthy v) eqn:T.
  - destruct v; try discriminate Hd; reflexivity.
  - change (environ (without_file m)) with (environ m). cbn [rbind].
    destruct (_overlay_env (environ m) []) as [d|e]; [|split; reflexivity].
    destruct (SyncConfig_init d); split; reflexivity.
Qed.

Lemma load_non_mapping_file_witness :
  load (machine_with (Some (PList [PStr "a"])) []) =
  (Raise (not_a_mapping_file (MkPath "confluence-sync.yml")),
   machine_with (Some (PList [PStr "a"])) []).
Proof.
  apply (load_non_mapping_file (machine_with (Some (PList [PStr "a"])) [])
                               (PList [PStr "a"])); reflexivity.
Defined.

(** C3, as stated, fails: a file whose top-level value is the empty list
    raises no format error; with the required settings in the environment
    [load] even succeeds. *)
Lemma empty_list_file_is_accepted :
  files empty_list_machine !! path_of empty_list_machine
  = Some (Document (PList []))
  /\ isinstance_list (PList []) = true
  /\ fst (load empty_list_machine)
     = Ok (mkSyncConfig (mkConfluenceConfig "b" "t" "K" None) (MkPath "docs") []).
Proof. repeat split. Qed.

(** ** Blank variables *)






(** ** Validation *)

Lemma str_required_valid at_ v s :
  str_required at_ v = Valid s -> v = Some (PStr s).
Proof.
  unfold str_required, one_error. destruct v as [[]|]; intros H;
    try discriminate H. congruence.
Qed.

Lemma str_items_strs at_ i l : str_items at_ i (map PStr l) = Valid l.
Proof.
  revert i. induction l as [|x l IH]; intros i; cbn; [reflexivity|].
  rewrite IH. reflexivity.
Qed.

Lemma ConfluenceConfig_validate_valid at_ d cc :
  ConfluenceConfig_validate at_ d = Valid cc ->
  dict_get (key "url") d = Some (PStr (url cc))
  /\ dict_get (key "api_token") d = Some (PStr (api_token cc))
  /\ dict_get (key "space_key") d = Some (PStr (space_key cc))
  /\ str_optional (at_ ++ [LocField "username"]) (dict_get (key "username") d)
     = Valid (username cc).
Proof.
  unfold ConfluenceConfig_validate.
  destruct (str_required _ (dict_get (key "url") d)) as [u|] eqn:E1;
    [|discriminate].
  destruct (str_required _ (dict_get (key "api_token") d)) as [t|] eqn:E2;
    [|discriminate].
  destruct (str_required _ (dict_get (key "space_key") d)) as [k|] eqn:E3;
    [|discriminate].
  destruct (str_optional _ (dict_get (key "username") d)) as [n|] eqn:E4;
    [|discriminate].
  intros [= <-]. cbn.
  apply str_required_valid in E1, E2, E3. auto.
Qed.

Lemma SyncConfig_validate_valid d cfg :
  SyncConfig_validate d = Valid cfg ->
  (exists c, dict_get (key "confluence") d = Some (PDict c)
             /\ ConfluenceConfig_validate [LocField "confluence"] c
                = Valid (confluence cfg))
  /\ path_default (MkPath "docs") [LocField "local_path"]
                  (dict_get (key "local_path") d) = Valid (local_path cfg)
  /\ str_list_default [LocField "ignore_patterns"]
                      (dict_get (key "ignore_patterns") d)
     = Valid (ignore_patterns cfg).
Proof.
  unfold SyncConfig_validate.
  destruct (confluence_required _ _) as [c|] eqn:E1; [|discriminate].
  destruct (path_default _ _ _) as [p|] eqn:E2; [|discriminate].
  destruct (str_list_default _ _) as [i|] eqn:E3; [|discriminate].
  intros [= <-]. cbn. repeat split.
  destruct (dict_get (key "confluence") d) as [[]|]; try discriminate E1.
  eauto.
Qed.

Lemma SyncConfig_init_valid d cfg :
  SyncConfig_init d = Ok cfg -> SyncConfig_validate d = Valid cfg.
Proof.
  unfold SyncConfig_init. destruct (forallb _ d); [|discriminate].
  destruct (SyncConfig_validate d); congruence.
Qed.

(** ** What the overlay leaves in the merged mapping *)

Lemma set_opt_empty name o d : set_opt name o d = [] -> o = None /\ d = [].
Proof.
  destruct o; cbn; [intros H; destruct (dict_set_nonempty _ _ _ H) | auto].
Qed.

Lemma overlay_confluence_empty environ c :
  overlay_confluence environ c = [] ->
  c = []
  /\ _get_env environ "CONFLUENCE_URL" = None
  /\ _get_env environ "CONFLUENCE_API_TOKEN" = None
  /\ _get_env environ "CONFLUENCE_SPACE_KEY" = None
  /\ _get_env environ "CONFLUENCE_USERNAME" = None.
Proof.
  unfold overlay_confluence. intros H.
  apply set_opt_empty in H as [H4 H]. apply set_opt_empty in H as [H3 H].
  apply set_opt_empty in H as [H2 H]. apply set_opt_empty in H as [H1 H].
  auto.
Qed.

Lemma overlay_confluence_get environ c name :
  dict_get (key name) (overlay_confluence environ c) =
  if String.eqb name "url" then
    match _get_env environ "CONFLUENCE_URL" with
    | Some v => Some (PStr v) | None => dict_get (key name) c end
  else if String.eqb name "api_token" then
    match _get_env environ "CONFLUENCE_API_TOKEN" with
    | Some v => Some (PStr v) | None => dict_get (key name) c end
  else if String.eqb name "space_key" then
    match _get_env environ "CONFLUENCE_SPACE_KEY" with
    | Some v => Some (PStr v) | None => dict_get (key name) c end
  else if String.eqb name "username" then
    match _get_env environ "CONFLUENCE_USERNAME" with
    | Some v => Some (PStr v) | None => dict_get (key name) c end
  else dict_get (key name) c.
Proof.
  unfold overlay_confluence.
  destruct (String.eqb_spec name "url") as [->|N1].
  { rewrite !set_opt_other by discriminate. apply set_opt_same. }
  destruct (String.eqb_spec name "api_token") as [->|N2].
  { rewrite !set_opt_other by discriminate. rewrite set_opt_same.
    rewrite set_opt_other by discriminate. reflexivity. }
  destruct (String.eqb_spec name "space_key") as [->|N3].
  { rewrite !set_opt_other by discriminate. rewrite set_opt_same.
    rewrite !set_opt_other by discriminate. reflexivity. }
  destruct (String.eqb_spec name "username") as [->|N4].
  { rewrite set_opt_same. rewrite !set_opt_other by discriminate. reflexivity. }
  rewrite !set_opt_other by congruence. reflexivity.
Qed.

Lemma overlay_local_get_confluence environ d c :
  dict_get (key "confluence") (overlay_local environ d c) =
  match c with
  | [] => dict_get (key "confluence") d
  | _ => Some (PDict c)
  end.
Proof.
  unfold overlay_local.
  destruct (_get_env environ "LOCAL_PATH");
    [rewrite dict_get_set_other by discriminate|];
    (destruct c; [reflexivity | apply dict_get_set_same]).
Qed.


Lemma overlay_patterns_get environ merged out name :
  overlay_patterns environ merged = Ok out ->
  name <> "ignore_patterns" ->
  dict_get (key name) out = dict_get (key name) merged.
Proof.
  unfold overlay_patterns. intros H N.
  destruct (_get_env environ "IGNORE_PATTERNS") as [raw|]; [|congruence].
  destruct (_parse_ignore_patterns raw); cbn in H; [|discriminate].
  injection H as <-. apply dict_get_set_other. congruence.
Qed.



(** ** Settings taken from the environment *)









(** ** Required settings *)

Lemma init_ok_fields merged cfg :
  SyncConfig_init merged = Ok cfg ->
  merged_field "url" merged = Some (PStr (url (confluence cfg)))
  /\ merged_field "api_token" merged = Some (PStr (api_token (confluence cfg)))
  /\ merged_field "space_key" merged = Some (PStr (space_key (confluence cfg))).
Proof.
  intros H. apply SyncConfig_init_valid, SyncConfig_validate_valid in H.
  destruct H as ((c & Hc & Hv) & _). unfold merged_field. rewrite Hc.
  apply ConfluenceConfig_validate_valid in Hv. tauto.
Qed.

Lemma init_fails_or_ok merged :
  str_keys merged = true ->
  fails_validation (SyncConfig_init merged) = true
  \/ exists cfg, SyncConfig_init merged = Ok cfg.
Proof.
  intros H. unfold SyncConfig_init. fold (str_keys merged). rewrite H.
  destruct (SyncConfig_validate merged); [right; eauto | left; reflexivity].
Qed.

Lemma load_result m merged :
  fst (merged_config m) = Ok merged ->
  fst (load m) = SyncConfig_init merged.
Proof.
  intros H. rewrite load_eq, H. destruct (SyncConfig_init merged); reflexivity.
Qed.

(** C2, as the code has it. For a merged configuration that reaches
    validation, [load] fails with a validation error whenever one of
    [url], [api_token], [space_key] is missing from the [confluence]
    mapping or is not a str; and [load] succeeds only when all three are
    there as strs, which the settings then hold. Nothing is asked of
    their length. *)
Theorem required_fields_checked (m : machine) (merged : pydict) :
  fst (merged_config m) = Ok merged ->
  (str_keys merged = true ->
   forallb (fun name => has_str_field name merged) required_fields = false ->
   fails_validation (fst (load m)) = true)
  /\ (forall cfg, fst (load m) = Ok cfg ->
        merged_field "url" merged = Some (PStr (url (confluence cfg)))
        /\ merged_field "api_token" merged
           = Some (PStr (api_token (confluence cfg)))
        /\ merged_field "space_key" merged
           = Some (PStr (space_key (confluence cfg)))).
Proof.
  intros Hm. rewrite (load_result _ _ Hm). split.
  - intros Hk Hf. destruct (init_fails_or_ok _ Hk) as [H|[cfg H]]; [exact H|].
    apply init_ok_fields in H. destruct H as (H1 & H2 & H3).
    unfold required_fields, has_str_field in Hf. cbn [forallb] in Hf.
    rewrite H1, H2, H3 in Hf. discriminate Hf.
  - intros cfg H. apply init_ok_fields, H.
Qed.

Lemma required_fields_checked_witness :
  fails_validation (fst (load missing_token_machine)) = true.
Proof.
  apply (proj1 (required_fields_checked missing_token_machine
                  missing_token_section eq_refl)); reflexivity.
Defined.

(** C2, as stated, fails: a file whose [url] is the empty string, with
    no override, loads without error, and the settings hold the empty
    [url]. *)
Lemma empty_url_is_accepted :
  fst (load empty_url_machine) = Ok empty_url_config
  /\ url (confluence empty_url_config) = EmptyString
  /\ fails_validation (fst (load empty_url_machine)) = false.
Proof. repeat split. Qed.

(** ** A missing [api_token] *)

Lemma names_field_app name a b :
  names_field name (a ++ b) = names_field name a || names_field name b.
Proof. unfold names_field. apply existsb_app. Qed.

Lemma names_field_cons name e errs :
  names_field name (e :: errs)
  = existsb (loc_item_is name) (loc e) || names_field name errs.
Proof. reflexivity. Qed.

Lemma str_items_do_not_name name at_ i l :
  existsb (loc_item_is name) at_ = false ->
  names_field name (errors_of (str_items at_ i l)) = false.
Proof.
  intros H. revert i. induction l as [|x l IH]; intros i; [reflexivity|].
  cbn [str_items]. specialize (IH (S i)).
  destruct x; destruct (str_items at_ (S i) l); cbn [errors_of] in *;
    rewrite ?names_field_cons; cbn [loc]; rewrite ?existsb_app, ?H, ?IH;
    reflexivity.
Qed.

Lemma other_fields_do_not_name_api_token d :
  names_field "api_token"
    (errors_of (path_default (MkPath "docs") [LocField "local_path"]
                             (dict_get (key "local_path") d))
     ++ errors_of (str_list_default [LocField "ignore_patterns"]
                                    (dict_get (key "ignore_patterns") d)))
  = false.
Proof.
  rewrite names_field_app. apply orb_false_iff. split.
  - destruct (dict_get (key "local_path") d) as [[]|]; reflexivity.
  - destruct (dict_get (key "ignore_patterns") d) as [[]|]; try reflexivity.
    apply str_items_do_not_name. reflexivity.
Qed.

Lemma validate_invalid_confluence d errs :
  confluence_required [LocField "confluence"] (dict_get (key "confluence") d)
  = Invalid errs ->
  SyncConfig_validate d =
  Invalid (errs
           ++ errors_of (path_default (MkPath "docs") [LocField "local_path"]
                                      (dict_get (key "local_path") d))
           ++ errors_of (str_list_default [LocField "ignore_patterns"]
                                          (dict_get (key "ignore_patterns") d))).
Proof. intros H. unfold SyncConfig_validate. rewrite H. reflexivity. Qed.

Lemma confluence_without_api_token c :
  dict_get (key "api_token") c = None ->
  exists errs,
    ConfluenceConfig_validate [LocField "confluence"] c = Invalid errs
    /\ names_field "api_token" errs = true
    /\ names_field "confluence" errs = true.
Proof.
  intros H. unfold ConfluenceConfig_validate. rewrite H.
  cbn [str_required one_error errors_of app].
  set (e := mkError [LocField "confluence"; LocField "api_token"] "missing").
  assert (Ha : forall a b, names_field "api_token" (a ++ [e] ++ b) = true).
  { intros a b. rewrite !names_field_app. cbn. apply orb_true_r. }
  assert (Hc : forall a b, names_field "confluence" (a ++ [e] ++ b) = true).
  { intros a b. rewrite !names_field_app. cbn. apply orb_true_r. }
  destruct (str_required _ (dict_get (key "url") c)); eexists; split;
    try reflexivity; split; first [apply Ha | apply Hc].
Qed.

(** The [confluence] mapping of the merged configuration has no
    [api_token] when neither the file nor the environment gives one. *)
Lemma merged_without_api_token environ config_data merged d :
  _overlay_env environ config_data = Ok merged ->
  file_field "api_token" config_data = None ->
  _get_env environ "CONFLUENCE_API_TOKEN" = None ->
  dict_get (key "confluence") merged = Some (PDict d) ->
  dict_get (key "api_token") d = None.
Proof.
  intros Ho Hf He Hd. unfold file_field in Hf.
  destruct (confluence_of config_data) as [v|e] eqn:C;
    [|rewrite (overlay_env_raises _ _ _ C) in Ho; discriminate].
  destruct (py_dict_returns_dict _ _ C) as [c ->].
  rewrite (overlay_env_dict _ _ _ C) in Ho.
  rewrite (overlay_patterns_get _ _ _ "confluence" Ho) in Hd by discriminate.
  rewrite overlay_local_get_confluence in Hd.
  destruct (overlay_confluence environ c) as [|x c'] eqn:E.
  - apply overlay_confluence_empty in E. destruct E as (-> & _).
    unfold confluence_of in C. rewrite Hd in C. cbn [default] in C.
    destruct d as [|y d]; [reflexivity|]. cbn in C. discriminate C.
  - injection Hd as <-. rewrite <- E, overlay_confluence_get, He. exact Hf.
Qed.

(** C7, as the code has it. When [api_token] is in neither the
    [confluence] section of the file nor the environment, and [load] gets
    as far as validation, it fails with a validation error. The report
    always mentions [confluence]; it mentions [api_token] exactly when the
    merged configuration holds a [confluence] mapping. *)
Theorem missing_api_token (m : machine) (config_data merged : pydict) :
  fst (read_config_data m) = Ok config_data ->
  file_field "api_token" config_data = None ->
  _get_env (environ m) "CONFLUENCE_API_TOKEN" = None ->
  fst (merged_config m) = Ok merged ->
  str_keys merged = true ->
  fails_validation (fst (load m)) = true
  /\ fails_naming "confluence" (fst (load m)) = true
  /\ fails_naming "api_token" (fst (load m))
     = isinstance_dict (default PNone (dict_get (key "confluence") merged)).
Proof.
  intros Hr Hf He Hm Hk. rewrite (load_result _ _ Hm).
  rewrite merged_config_eq in Hm. cbn [fst] in Hm. rewrite Hr in Hm.
  cbn [rbind] in Hm.
  unfold SyncConfig_init. fold (str_keys merged). rewrite Hk.
  destruct (dict_get (key "confluence") merged) as [v|] eqn:Hd.
  - destruct v as [| | | | |d];
      try (erewrite validate_invalid_confluence by (rewrite Hd; reflexivity);
           cbn [fails_validation fails_naming app default isinstance_dict];
           repeat split;
           rewrite names_field_cons, other_fields_do_not_name_api_token;
           reflexivity).
    pose proof (merged_without_api_token _ _ _ _ Hm Hf He Hd) as Hnone.
    destruct (confluence_without_api_token _ Hnone) as (errs & Hv & Ha & Hc).
    erewrite validate_invalid_confluence by (rewrite Hd; exact Hv).
    cbn [fails_validation fails_naming default isinstance_dict].
    rewrite !names_field_app, Ha, Hc. repeat split.
  - erewrite validate_invalid_confluence by (rewrite Hd; reflexivity).
    cbn [fails_validation fails_naming app default isinstance_dict].
    repeat split.
    rewrite names_field_cons, other_fields_do_not_name_api_token. reflexivity.
Qed.

Lemma missing_api_token_witness :
  fails_validation (fst (load missing_token_machine)) = true
  /\ fails_naming "confluence" (fst (load missing_token_machine)) = true
  /\ fails_naming "api_token" (fst (load missing_token_machine)) = true.
Proof.
  apply (missing_api_token missing_token_machine missing_token_section
                           missing_token_section); reflexivity.
Defined.

(** C7, as stated, fails. With a file that has no [confluence] section
    and an empty environment, the validation error mentions [confluence]
    and nowhere [api_token]; and with a [confluence] section that lacks
    [api_token] and an [IGNORE_PATTERNS] that is not JSON, [load] raises
    the error of the JSON reader, not a validation error. *)
Lemma missing_api_token_not_named :
  fst (load no_section_machine)
  = Raise (ValidationError "SyncConfig"
             [mkError [LocField "confluence"] "missing"])
  /\ fails_naming "api_token" (fst (load no_section_machine)) = false
  /\ fst (load bad_patterns_machine) = Raise JSONDecodeError
  /\ fails_validation (fst (load bad_patterns_machine)) = false.
Proof. repeat split. Qed.

(** * Further properties of the loader *)

(** ** [_get_env] *)


(** ** [load] as a single expression *)

Lemma load_finish m :
  load m =
  finish m (try! config_data := fst (read_config_data m) in
            try! merged := _overlay_env (environ m) config_data in
            SyncConfig_init merged).
Proof.
  rewrite load_eq, merged_config_eq. cbn [fst].
  destruct (fst (read_config_data m)) as [d|]; [|reflexivity]. cbn [rbind].
  destruct (_overlay_env (environ m) d) as [out|]; [|reflexivity]. cbn [rbind].
  destruct (SyncConfig_init out); reflexivity.
Qed.

Lemma read_mapping m d :
  files m !! path_of m = Some (Document (PDict d)) ->
  fst (read_config_data m) = Ok d.
Proof.
  intros H. rewrite read_config_data_eq, H. cbn [fst]. destruct d; reflexivity.
Qed.

(** ** Settings from the file alone *)

Lemma dict_set_same_value a v d :
  dict_get (key a) d = Some v -> dict_set (key a) v d = d.
Proof.
  induction d as [|[k w] d IH]; cbn [dict_get dict_set]; [discriminate|].
  destruct (key_eqb k (key a)); [congruence|].
  intros H. rewrite (IH H). reflexivity.
Qed.

Lemma overlay_env_unset_mapping environ d :
  env_unset environ ->
  (forall v, dict_get (key "confluence") d = Some v ->
             isinstance_dict v || negb (truthy v) = true) ->
  _overlay_env environ d = Ok d.
Proof.
  intros He Hv. rewrite (overlay_env_unset _ _ He). unfold confluence_of, py_or.
  destruct (dict_get (key "confluence") d) as [v|] eqn:E; [|reflexivity].
  specialize (Hv v eq_refl). change (default PNone (Some v)) with v.
  destruct (truthy v) eqn:T; [|reflexivity].
  destruct v; try discriminate Hv. cbn [py_dict].
  destruct d0 as [|x c]; [reflexivity|].
  rewrite (dict_set_same_value _ _ _ E). reflexivity.
Qed.

(** X6. With no override from the environment, and a file that is a
    mapping whose [confluence] value is a mapping (or missing, or false in
    Python), [load] validates the mapping of the file as it stands: it
    returns, or raises, what [SyncConfig] makes of it, so that the
    required settings it returns are those written in the file. *)
Theorem load_file_as_is (m : machine) (d : pydict) :
  files m !! path_of m = Some (Document (PDict d)) ->
  env_unset (environ m) ->
  (forall v, dict_get (key "confluence") d = Some v ->
             isinstance_dict v || negb (truthy v) = true) ->
  load m = finish m (SyncConfig_init d)
  /\ (forall cfg, fst (load m) = Ok cfg ->
        merged_field "url" d = Some (PStr (url (confluence cfg)))
        /\ merged_field "api_token" d = Some (PStr (api_token (confluence cfg)))
        /\ merged_field "space_key" d = Some (PStr (space_key (confluence cfg)))).
Proof.
  intros Hf He Hv.
  assert (E : load m = finish m (SyncConfig_init d)).
  { rewrite load_finish, (read_mapping _ _ Hf). cbn [rbind].
    rewrite (overlay_env_unset_mapping _ _ He Hv). reflexivity. }
  split; [exact E|]. intros cfg H. rewrite E in H.
  apply init_ok_fields. destruct (SyncConfig_init d); cbn in H; congruence.
Qed.

Lemma load_file_as_is_witness :
  load empty_url_machine
  = (Ok empty_url_config, set_config (Some empty_url_config) empty_url_machine).
Proof.
  refine (proj1 (load_file_as_is empty_url_machine
                   [(key "confluence",
                     PDict [(key "url", PStr EmptyString);
                            (key "api_token", PStr "t");
                            (key "space_key", PStr "k")])] _ _ _)).
  - reflexivity.
  - intros name Hn. cbn in Hn.
    decompose [or] Hn; subst; try reflexivity; contradiction.
  - intros v [= <-]. reflexivity.
Defined.

(** ** Settings from the environment alone *)

(** X7. With no file, and the three required variables set, [load]
    returns the settings the environment stands for: the three values,
    [username] if [CONFLUENCE_USERNAME] is set, the path of [LOCAL_PATH] or
    else [docs], the patterns of [IGNORE_PATTERNS] or else none; it fails
    only if [IGNORE_PATTERNS] does not parse. *)
Theorem load_from_environment (m : machine) (u t k : string) :
  files m !! path_of m = None ->
  _get_env (environ m) "CONFLUENCE_URL" = Some u ->
  _get_env (environ m) "CONFLUENCE_API_TOKEN" = Some t ->
  _get_env (environ m) "CONFLUENCE_SPACE_KEY" = Some k ->
  load m = finish m (env_config (environ m) u t k).
Proof.
  intros Hf Hu Ht Hk. rewrite load_finish, read_config_data_eq, Hf.
  cbn [fst rbind].
  rewrite (overlay_env_dict (environ m) [] []) by reflexivity.
  unfold overlay_patterns, overlay_local, overlay_confluence, env_config,
    env_patterns.
  rewrite Hu, Ht, Hk.
  destruct (_get_env (environ m) "CONFLUENCE_USERNAME");
    destruct (_get_env (environ m) "LOCAL_PATH");
    destruct (_get_env (environ m) "IGNORE_PATTERNS") as [raw|];
    try destruct (_parse_ignore_patterns raw) as [ps|e];
    cbn [rbind]; try reflexivity.
  all: unfold SyncConfig_init, SyncConfig_validate; cbn.
  all: rewrite str_items_strs; reflexivity.
Qed.

Lemma load_from_environment_witness :
  load env_only_machine
  = finish env_only_machine (env_config (environ env_only_machine) "u" "t" "k").
Proof. apply (load_from_environment env_only_machine "u" "t" "k"); reflexivity. Defined.

(** ** The interactive file *)

(** X9. After [save_interactive_config], [load] on the same path with no
    override from the environment returns the arguments as settings: the
    three required values whatever they are, the path as given, the
    [username] unless it was [None] or empty, and the three default
    patterns. *)
Theorem load_after_save_interactive_config
    (m : machine) (u t k lp : string) (un : option string) :
  env_unset (environ m) ->
  and_then (save_interactive_config u t k lp un) load m =
  (Ok (interactive_config u t k lp un),
   set_config (Some (interactive_config u t k lp un))
              (snd (save_interactive_config u t k lp un m))).
Proof.
  intros He.
  change (and_then (save_interactive_config u t k lp un) load m)
    with (load (snd (save_interactive_config u t k lp un m))).
  set (m1 := snd (save_interactive_config u t k lp un m)).
  rewrite load_finish.
  erewrite read_mapping by (apply lookup_insert_eq).
  cbn [rbind].
  rewrite overlay_env_unset_mapping.
  - unfold interactive_config, written_username.
    destruct un as [x|]; [destruct x|]; reflexivity.
  - exact He.
  - intros v. destruct un as [x|]; [destruct x|]; intros [= <-]; reflexivity.
Qed.

Lemma load_after_save_interactive_config_witness :
  and_then (save_interactive_config "u" "t" "k" "docs" (Some EmptyString)) load
           (machine_with None [])
  = (Ok (interactive_config "u" "t" "k" "docs" (Some EmptyString)),
     set_config (Some (interactive_config "u" "t" "k" "docs" (Some EmptyString)))
       (snd (save_interactive_config "u" "t" "k" "docs" (Some EmptyString)
               (machine_with None [])))).
Proof.
  apply (load_after_save_interactive_config (machine_with None [])).
  intros name Hn. cbn in Hn. decompose [or] Hn; subst; try reflexivity; contradiction.
Defined.

(** ** The cached accessor *)

Lemma config_eq m :
  config m =
  match _config (self m) with
  | Some c => (Ok c, m)
  | None => load m
  end.
Proof.
  unfold config, bind, gets. destruct (_config (self m)); [reflexivity|].
  rewrite load_finish. destruct (rbind _ _); reflexivity.
Qed.

(** X11. The accessor [config] returns the cached settings without
    reading anything when there are some, and is exactly [load] when
    there are none; so asking twice is the same as asking once, and a
    failed first access leaves the cache empty for the next one. *)
Theorem config_twice (m : machine) :
  and_then config config m = config m
  /\ match _config (self m) with
     | Some c => config m = (Ok c, m)
     | None => config m = load m
     end.
Proof.
  split; [|rewrite config_eq; destruct (_config (self m)); reflexivity].
  unfold and_then, bind. rewrite (config_eq m).
  destruct (_config (self m)) as [c|] eqn:H.
  - rewrite config_eq, H. reflexivity.
  - rewrite load_finish. destruct (rbind _ _) as [c|e]; [|reflexivity].
    cbn [finish]. rewrite config_eq. reflexivity.
Qed.
